(** * wazbean: the WebAssembly wrapper around the Beancount parser

    A shallow embedding of [wazbean_wrapper.cc].  The file holds one global,
    [result_json], and one exported function, [parse_bql_to_json], which calls
    two external routines: [beancount::parser::ParseString] and
    [google::protobuf::util::MessageToJsonString].

    The wrapper is written in a state monad over the process (the global
    buffer, together with the history of the external calls made so far), so
    that the definition reads like the C++ body, and so that what was called,
    in which order and with which arguments, can be stated. *)

From Stdlib Require Import String Ascii List Lia.
From ExtLib Require Import Structures.Monad Structures.MonadState.
From ExtLib Require Import Data.Monads.StateMonad.
Import ListNotations.
Import MonadNotation.
Local Open Scope string_scope.
Local Open Scope monad_scope.

(** ** Values that cross the boundary *)

(** [google::protobuf::util::Status], as far as the wrapper looks at it: it
    only asks [status.ok()]. *)
Inductive Status : Type :=
| OkStatus
| ErrorStatus (message : string).

Definition ok (s : Status) : bool :=
  match s with
  | OkStatus => true
  | ErrorStatus _ => false
  end.

(** [google::protobuf::util::JsonPrintOptions].  The wrapper names two of its
    fields; the others, whatever the library version declares, are kept
    together in [remaining_fields]. *)
Record JsonPrintOptions (Rest : Type) : Type := mkJsonPrintOptions {
  add_whitespace : bool;
  always_print_primitive_fields : bool;
  remaining_fields : Rest
}.
Arguments mkJsonPrintOptions {Rest} _ _ _.
Arguments add_whitespace {Rest} _.
Arguments always_print_primitive_fields {Rest} _.
Arguments remaining_fields {Rest} _.

(** [json_options.add_whitespace = true;] *)
Definition set_add_whitespace {Rest} (b : bool) (o : JsonPrintOptions Rest)
  : JsonPrintOptions Rest :=
  mkJsonPrintOptions b (always_print_primitive_fields o) (remaining_fields o).

(** [json_options.always_print_primitive_fields = true;] *)
Definition set_always_print_primitive_fields {Rest} (b : bool)
  (o : JsonPrintOptions Rest) : JsonPrintOptions Rest :=
  mkJsonPrintOptions (add_whitespace o) b (remaining_fields o).

(** ** The external collaborators

    Neither routine is part of the repository; the wrapper is verified
    against every implementation of this interface.

    - [ParseString text filename] is [beancount::parser::ParseString]: it
      returns an owned ledger, or [None] for the null [unique_ptr].
    - [MessageToJsonString message output options] receives the ledger, the
      present contents of the string its second argument points to, and the
      options; it returns the status and the contents it leaves in that
      string.
    - [JsonPrintOptions_new] is the default-constructed options object.

    Both routines are functions of their arguments. *)
Class Collaborators : Type := {
  Ledger : Type;
  Rest : Type;
  JsonPrintOptions_new : JsonPrintOptions Rest;
  ParseString : string -> string -> option Ledger;
  MessageToJsonString :
    Ledger -> string -> JsonPrintOptions Rest -> Status * string
}.

(** ** The process *)

(** One external call, with its arguments. *)
Inductive Call `{Collaborators} : Type :=
| CallParseString (text filename : string)
| CallMessageToJsonString (message : Ledger) (output : string)
                          (options : JsonPrintOptions Rest).
Arguments CallParseString {_} _ _.
Arguments CallMessageToJsonString {_} _ _ _.

(** [std::string result_json;] and the external calls made so far, oldest
    first. *)
Record Process `{Collaborators} : Type := mkProcess {
  result_json : string;
  calls : list Call
}.
Arguments mkProcess {_} _ _.

(** A static [std::string] starts empty. *)
Definition initial `{Collaborators} : Process := mkProcess EmptyString [].

(** What a [const char*] handed to the host can be: null, or
    [result_json.c_str()]. *)
Inductive char_ptr : Type :=
| nullptr
| result_json_c_str.

(** The text the host reads through a returned pointer. *)
Definition read `{Collaborators} (p : char_ptr) (w : Process) : option string :=
  match p with
  | nullptr => None
  | result_json_c_str => Some (result_json w)
  end.

(** The character codes of a text, in order: the bytes the host finds
    behind the pointer. *)
Definition codes (s : string) : list nat :=
  map nat_of_ascii (list_ascii_of_string s).

Section Wrapper.
Context `{C : Collaborators}.

Definition M : Type -> Type := state Process.

(** [result_json = s;] *)
Definition assign_result_json (s : string) : M unit :=
  w <- get ;;
  put (mkProcess s (calls w)).

(** [beancount::parser::ParseString(text, filename)] *)
Definition call_ParseString (text filename : string) : M (option Ledger) :=
  w <- get ;;
  put (mkProcess (result_json w)
                 (calls w ++ [CallParseString text filename])) ;;
  ret (ParseString text filename).

(** [MessageToJsonString(message, &result_json, options)] *)
Definition call_MessageToJsonString (message : Ledger)
  (options : JsonPrintOptions Rest) : M Status :=
  w <- get ;;
  let (status, output) :=
    MessageToJsonString message (result_json w) options in
  put (mkProcess output
         (calls w ++
          [CallMessageToJsonString message (result_json w) options])) ;;
  ret status.

(** The double quote, for the literals below. *)
Definition dq : string := String (ascii_of_nat 34) EmptyString.

(** [{"error": "<message>"}] *)
Definition error_payload (message : string) : string :=
  "{" ++ dq ++ "error" ++ dq ++ ": " ++ dq ++ message ++ dq ++ "}".

Definition null_input_payload : string :=
  Eval cbv in error_payload "Input query was null.".
Definition null_ledger_payload : string :=
  Eval cbv in error_payload "Parser returned a null ledger.".
Definition serialize_error_payload : string :=
  Eval cbv in error_payload "Failed to serialize ledger to JSON.".

(** The options the wrapper builds before serializing. *)
Definition json_options : JsonPrintOptions Rest :=
  set_always_print_primitive_fields true
    (set_add_whitespace true JsonPrintOptions_new).

(** [const char* parse_bql_to_json(const char* query_string)] *)
Definition parse_bql_to_json (query_string : option string) : M char_ptr :=
  match query_string with
  | None =>
      assign_result_json null_input_payload ;;
      ret result_json_c_str
  | Some text =>
      ledger <- call_ParseString text "<wazbean>" ;;
      match ledger with
      | None =>
          assign_result_json null_ledger_payload ;;
          ret result_json_c_str
      | Some message =>
          status <- call_MessageToJsonString message json_options ;;
          if negb (ok status) then
            assign_result_json serialize_error_payload ;;
            ret result_json_c_str
          else
            ret result_json_c_str
      end
  end.

(** One call, from process [w]: the pointer returned and the process
    afterwards. *)
Definition call (query_string : option string) (w : Process)
  : char_ptr * Process :=
  runState (parse_bql_to_json query_string) w.

(** The text the host reads from the pointer a call returns. *)
Definition returned (query_string : option string) (w : Process)
  : option string :=
  let (p, w') := call query_string w in read p w'.

(** The external calls one call makes, in order: its history when it
    starts from an empty one. *)
Definition new_calls (query_string : option string) (w : Process)
  : list Call :=
  calls (snd (call query_string (mkProcess (result_json w) []))).

(** A sequence of calls, one after the other. *)
Fixpoint run (inputs : list (option string)) (w : Process) : Process :=
  match inputs with
  | [] => w
  | q :: rest => run rest (snd (call q w))
  end.

(** The four ways out of [parse_bql_to_json], by the conditions the body
    tests. *)
Inductive Branch : Type :=
| NullInput
| NullLedger
| SerializeFailed
| Serialized.

Definition branch (query_string : option string) (w : Process) : Branch :=
  match query_string with
  | None => NullInput
  | Some text =>
      match ParseString text "<wazbean>" with
      | None => NullLedger
      | Some message =>
          let (status, _) :=
            MessageToJsonString message (result_json w) json_options in
          if negb (ok status) then SerializeFailed else Serialized
      end
  end.

(** The fixed text of each error branch. *)
Definition payload (b : Branch) : option string :=
  match b with
  | NullInput => Some null_input_payload
  | NullLedger => Some null_ledger_payload
  | SerializeFailed => Some serialize_error_payload
  | Serialized => None
  end.

(** Which external routine a call went to. *)
Definition is_parse (c : Call) : bool :=
  match c with
  | CallParseString _ _ => true
  | CallMessageToJsonString _ _ _ => false
  end.

Definition is_serialize (c : Call) : bool := negb (is_parse c).

End Wrapper.

(** ** The serializer's contract

    The protobuf header documents [MessageToJsonString] as converting the
    message to JSON and appending it to the output string: it writes through
    a stream that extends the string it is given.  [to_json message options]
    is the status and the text the conversion emits (on failure, whatever
    had been emitted by then). *)
Definition appending {L R : Type}
  (to_json : L -> JsonPrintOptions R -> Status * string)
  (message : L) (output : string) (options : JsonPrintOptions R)
  : Status * string :=
  let (status, text) := to_json message options in
  (status, output ++ text).

(** The serializer of [C] follows that contract, emitting what [to_json]
    says. *)
Definition appends `{C : Collaborators}
  (to_json : Ledger -> JsonPrintOptions Rest -> Status * string) : Prop :=
  forall message output options,
    MessageToJsonString message output options
    = appending to_json message output options.

(** Collaborators whose serializer follows that contract. *)
Definition Protobuf (L R : Type) (new : JsonPrintOptions R)
  (parse : string -> string -> option L)
  (to_json : L -> JsonPrintOptions R -> Status * string) : Collaborators :=
  {| Ledger := L;
     Rest := R;
     JsonPrintOptions_new := new;
     ParseString := parse;
     MessageToJsonString := appending to_json |}.

(** ** Stand-ins for the two libraries

    Small executable collaborators, used to run the wrapper on concrete
    inputs. *)
Module Stub.

(** A ledger that only remembers the text it was parsed from. *)
Definition Ledger : Type := string.

(** The fields of the options object the wrapper does not name:
    [always_print_enums_as_ints] and [preserve_proto_field_names]. *)
Definition Rest : Type := (bool * bool)%type.

Definition JsonPrintOptions_new : JsonPrintOptions Rest :=
  mkJsonPrintOptions false false (false, false).

(** Gives up (null) on the empty text. *)
Definition ParseString (text filename : string) : option Ledger :=
  if String.eqb text EmptyString then None else Some text.

(** Emits the text between brackets; fails half-way on the ledger
    [unprintable]. *)
Definition to_json (message : Ledger) (options : JsonPrintOptions Rest)
  : Status * string :=
  if String.eqb message "unprintable"
  then (ErrorStatus "cannot print", "[unpr")
  else (OkStatus, "[" ++ message ++ "]").

Definition collaborators : Collaborators :=
  Protobuf Ledger Rest JsonPrintOptions_new ParseString to_json.

End Stub.

(** ** Sessions

    What a sequence of calls asks of the collaborators, read off the inputs
    alone. *)
Section Sessions.
Context `{C : Collaborators}.

(** The parser calls the inputs give rise to: one for each non-null input,
    in order, under the fixed label. *)
Definition parser_calls_for (inputs : list (option string)) : list Call :=
  flat_map
    (fun q =>
       match q with
       | None => []
       | Some text => [CallParseString text "<wazbean>"]
       end)
    inputs.

(** The input gets past both null checks. *)
Definition reaches_serializer (q : option string) : bool :=
  match q with
  | None => false
  | Some text =>
      match ParseString text "<wazbean>" with
      | None => false
      | Some _ => true
      end
  end.

Variable to_json : Ledger -> JsonPrintOptions Rest -> Status * string.

(** The text parses to a ledger whose conversion reports ok. *)
Definition succeeds (text : string) : bool :=
  match ParseString text "<wazbean>" with
  | None => false
  | Some message => ok (fst (to_json message json_options))
  end.

(** The text the conversion emits for the ledger of [text]. *)
Definition emitted (text : string) : string :=
  match ParseString text "<wazbean>" with
  | None => EmptyString
  | Some message => snd (to_json message json_options)
  end.

(** The emitted texts of several inputs, one after the other. *)
Definition emitted_all (texts : list string) : string :=
  fold_right append EmptyString (map emitted texts).

End Sessions.

(** * Properties *)

(** Unfolds one call of the wrapper down to the external routines. *)
Ltac step_wrapper :=
  unfold returned, new_calls, call, parse_bql_to_json,
    call_ParseString, call_MessageToJsonString, assign_result_json;
  cbn [runState bind ret get put Monad_state MonadState_state
       fst snd read result_json calls].

Section Facts.
Context `{C : Collaborators}.

(** What one call does, branch by branch. *)
Lemma call_null (w : Process) :
  call None w =
  (result_json_c_str, mkProcess null_input_payload (calls w)).
Proof. reflexivity. Qed.

Lemma call_null_ledger (text : string) (w : Process) :
  ParseString text "<wazbean>" = None ->
  call (Some text) w =
  (result_json_c_str,
   mkProcess null_ledger_payload
             (calls w ++ [CallParseString text "<wazbean>"])).
Proof. intros Hp. step_wrapper. rewrite Hp. reflexivity. Qed.

Lemma call_serialize (text : string) (message : Ledger) (w : Process) :
  ParseString text "<wazbean>" = Some message ->
  call (Some text) w =
  (result_json_c_str,
   mkProcess
     (let (status, output) :=
        MessageToJsonString message (result_json w) json_options in
      if negb (ok status) then serialize_error_payload else output)
     ((calls w ++ [CallParseString text "<wazbean>"]) ++
      [CallMessageToJsonString message (result_json w) json_options])).
Proof.
  intros Hp. step_wrapper. rewrite Hp. cbn.
  destruct (MessageToJsonString message (result_json w) json_options)
    as [status output].
  destruct status; reflexivity.
Qed.

Lemma returned_buffer (q : option string) (w : Process) :
  returned q w = Some (result_json (snd (call q w))).
Proof.
  destruct q as [text|]; [|reflexivity].
  destruct (ParseString text "<wazbean>") as [message|] eqn:Hp.
  - unfold returned. rewrite (call_serialize text message w Hp).
    reflexivity.
  - unfold returned. rewrite (call_null_ledger text w Hp). reflexivity.
Qed.

Lemma calls_extended (q : option string) (w : Process) :
  calls (snd (call q w)) = (calls w ++ new_calls q w)%list.
Proof.
  unfold new_calls.
  destruct q as [text|].
  - destruct (ParseString text "<wazbean>") as [message|] eqn:Hp.
    + rewrite !(call_serialize text message _ Hp). cbn.
      rewrite <- app_assoc. reflexivity.
    + rewrite !(call_null_ledger text _ Hp). reflexivity.
  - rewrite !call_null. cbn. rewrite app_nil_r. reflexivity.
Qed.

Lemma new_calls_null (w : Process) : new_calls None w = [].
Proof. reflexivity. Qed.

Lemma new_calls_null_ledger (text : string) (w : Process) :
  ParseString text "<wazbean>" = None ->
  new_calls (Some text) w = [CallParseString text "<wazbean>"].
Proof.
  intros Hp. unfold new_calls. rewrite (call_null_ledger text _ Hp).
  reflexivity.
Qed.

Lemma new_calls_serialize (text : string) (message : Ledger) (w : Process) :
  ParseString text "<wazbean>" = Some message ->
  new_calls (Some text) w =
  [CallParseString text "<wazbean>";
   CallMessageToJsonString message (result_json w) json_options].
Proof.
  intros Hp. unfold new_calls. rewrite (call_serialize text message _ Hp).
  reflexivity.
Qed.

(** On an error branch the text returned is the branch's payload; on the
    last branch it is what the serializer left in the buffer. *)
Lemma returned_by_branch (q : option string) (w : Process) :
  match payload (branch q w) with
  | Some fixed => returned q w = Some fixed
  | None =>
      exists text message,
        q = Some text /\
        ParseString text "<wazbean>" = Some message /\
        returned q w =
        Some (snd (MessageToJsonString message (result_json w)
                     json_options))
  end.
Proof.
  rewrite returned_buffer. unfold branch.
  destruct q as [text|]; [|reflexivity].
  destruct (ParseString text "<wazbean>") as [message|] eqn:Hp.
  - rewrite (call_serialize text message w Hp). cbn.
    destruct (MessageToJsonString message (result_json w) json_options)
      as [status output] eqn:Hs.
    destruct (negb (ok status)); cbn; [reflexivity|].
    exists text, message. rewrite Hs. repeat split; auto.
  - rewrite (call_null_ledger text w Hp). reflexivity.
Qed.

End Facts.

(** ** The wrapper against any collaborators *)

Section Boundary.
Context `{C : Collaborators}.

(** C3: on the null input pointer the text returned is exactly the
    null-input payload, [{"error": "Input query was null."}], whatever the
    process was before.  The text is written out, the quote as the
    character of code 034, and again as its 34 character codes. *)
Theorem null_input_payload_returned (w : Process) :
  returned None w
  = Some ("{" ++ String "034" "error" ++ String "034" ": " ++
          String "034" "Input query was null." ++
          String "034" "}") /\
  option_map codes (returned None w)
  = Some
      [123; 34; 101; 114; 114; 111; 114; 34; 58; 32; 34; 73; 110; 112;
       117; 116; 32; 113; 117; 101; 114; 121; 32; 119; 97; 115; 32;
       110; 117; 108; 108; 46; 34; 125].
Proof. split; reflexivity. Qed.

(** C4: when the parser returns the null ledger for a non-null input, the
    text returned is exactly the null-ledger payload,
    [{"error": "Parser returned a null ledger."}], and the only external
    call made is the one to the parser: the serializer is not invoked. *)
Theorem null_ledger_payload_returned (text : string) (w : Process) :
  ParseString text "<wazbean>" = None ->
  returned (Some text) w
  = Some ("{" ++ String "034" "error" ++ String "034" ": " ++
          String "034" "Parser returned a null ledger." ++
          String "034" "}") /\
  option_map codes (returned (Some text) w)
  = Some
      [123; 34; 101; 114; 114; 111; 114; 34; 58; 32; 34; 80; 97; 114;
       115; 101; 114; 32; 114; 101; 116; 117; 114; 110; 101; 100; 32;
       97; 32; 110; 117; 108; 108; 32; 108; 101; 100; 103; 101; 114;
       46; 34; 125] /\
  new_calls (Some text) w = [CallParseString text "<wazbean>"] /\
  existsb is_serialize (new_calls (Some text) w) = false.
Proof.
  intros Hp. rewrite (new_calls_null_ledger text w Hp).
  unfold returned. rewrite (call_null_ledger text w Hp).
  repeat split.
Qed.

(** C5: when the serializer reports a status that is not ok, the text
    returned is exactly the serialization-error payload,
    [{"error": "Failed to serialize ledger to JSON."}]: the buffer holds the
    payload alone, and nothing of what the serializer had written to it. *)
Theorem serialize_error_payload_returned
  (text : string) (message : Ledger) (w : Process) :
  ParseString text "<wazbean>" = Some message ->
  ok (fst (MessageToJsonString message (result_json w) json_options))
    = false ->
  returned (Some text) w
  = Some ("{" ++ String "034" "error" ++ String "034" ": " ++
          String "034" "Failed to serialize ledger to JSON." ++
          String "034" "}") /\
  option_map codes (returned (Some text) w)
  = Some
      [123; 34; 101; 114; 114; 111; 114; 34; 58; 32; 34; 70; 97; 105;
       108; 101; 100; 32; 116; 111; 32; 115; 101; 114; 105; 97; 108;
       105; 122; 101; 32; 108; 101; 100; 103; 101; 114; 32; 116; 111;
       32; 74; 83; 79; 78; 46; 34; 125] /\
  result_json (snd (call (Some text) w)) = serialize_error_payload.
Proof.
  intros Hp Hs. rewrite returned_buffer.
  rewrite (call_serialize text message w Hp). cbn [snd result_json].
  destruct (MessageToJsonString message (result_json w) json_options)
    as [status output].
  cbn [fst] in Hs. rewrite Hs. repeat split.
Qed.

(** C6: every call to the serializer that a call of the wrapper makes
    carries options with [add_whitespace] and
    [always_print_primitive_fields] both true, and every other field as the
    default constructor left it. *)
Theorem serializer_options
  (q : option string) (w : Process)
  (message : Ledger) (output : string) (options : JsonPrintOptions Rest) :
  In (CallMessageToJsonString message output options) (new_calls q w) ->
  add_whitespace options = true /\
  always_print_primitive_fields options = true /\
  remaining_fields options = remaining_fields JsonPrintOptions_new.
Proof.
  intros Hin. destruct q as [text|].
  - destruct (ParseString text "<wazbean>") as [parsed|] eqn:Hp.
    + rewrite (new_calls_serialize text parsed w Hp) in Hin.
      destruct Hin as [Hc|[Hc|[]]]; [discriminate Hc|].
      injection Hc as _ _ <-. repeat split.
    + rewrite (new_calls_null_ledger text w Hp) in Hin.
      destruct Hin as [Hc|[]]. discriminate Hc.
  - destruct Hin.
Qed.


(** C8: the pointer returned is never null: on every path it is
    [result_json.c_str()], so the host reads the contents of the global
    buffer. *)
Theorem never_null (q : option string) (w : Process) :
  fst (call q w) <> nullptr /\
  fst (call q w) = result_json_c_str /\
  returned q w = Some (result_json (snd (call q w))).
Proof.
  assert (H : fst (call q w) = result_json_c_str).
  { destruct q as [text|]; [|reflexivity].
    destruct (ParseString text "<wazbean>") as [message|] eqn:Hp.
    - rewrite (call_serialize text message w Hp). reflexivity.
    - rewrite (call_null_ledger text w Hp). reflexivity. }
  rewrite H. repeat split; [discriminate | apply returned_buffer].
Qed.

(** C9: on the null input the parser is not invoked: the call makes no
    external call at all, and the only change to the process is that the
    buffer now holds the null-input payload. *)
Theorem null_input_skips_parser (w : Process) :
  new_calls None w = [] /\
  call None w = (result_json_c_str, mkProcess null_input_payload (calls w)).
Proof. split; reflexivity. Qed.

(** C10: a call that leaves by one of the three error branches returns the
    payload of that branch, whatever the buffer held before; two such calls
    on the same branch, from any two processes, return the same text. *)
Theorem error_branches_overwrite (q : option string) (w1 w2 : Process) :
  branch q w1 <> Serialized ->
  branch q w2 = branch q w1 ->
  returned q w1 = payload (branch q w1) /\
  returned q w2 = returned q w1.
Proof.
  intros Herr Hsame.
  pose proof (returned_by_branch q w1) as H1.
  pose proof (returned_by_branch q w2) as H2.
  rewrite Hsame in H2.
  destruct (branch q w1); cbn [payload] in *;
    try (rewrite H1, H2; split; reflexivity).
  contradiction Herr. reflexivity.
Qed.

End Boundary.

(** ** The wrapper against a serializer that appends *)

Lemma length_append (s t : string) :
  String.length (s ++ t) = String.length s + String.length t.
Proof. induction s as [|a s IH]; cbn; [reflexivity | now rewrite IH]. Qed.

Lemma append_longer (s t : string) : s <> EmptyString -> (s ++ t)%string <> t.
Proof.
  intros Hs Heq. apply (f_equal String.length) in Heq.
  rewrite length_append in Heq.
  destruct s as [|a s]; [now apply Hs | cbn in Heq; lia].
Qed.

Section Appending.
Context `{C : Collaborators}.
Variable to_json : Ledger -> JsonPrintOptions Rest -> Status * string.
Hypothesis contract : appends to_json.

(** A successful serialization leaves the old contents of the buffer in
    front of the new text. *)
Lemma returned_appended
  (text : string) (message : Ledger) (status : Status) (json : string)
  (w : Process) :
  ParseString text "<wazbean>" = Some message ->
  to_json message json_options = (status, json) ->
  ok status = true ->
  call (Some text) w =
  (result_json_c_str,
   mkProcess (result_json w ++ json)
     ((calls w ++ [CallParseString text "<wazbean>"]) ++
      [CallMessageToJsonString message (result_json w) json_options])).
Proof.
  intros Hp Hj Hok. rewrite (call_serialize text message w Hp).
  rewrite contract. unfold appending. rewrite Hj, Hok. reflexivity.
Qed.

(** C1: on a well-formed input the text returned is the old contents of the
    buffer followed by the JSON of the ledger; it is the JSON alone only
    when the buffer was empty, and differs from it whenever an earlier call
    has left something there. *)
Theorem serialized_text_follows_old_buffer
  (text : string) (message : Ledger) (status : Status) (json : string)
  (w : Process) :
  ParseString text "<wazbean>" = Some message ->
  to_json message json_options = (status, json) ->
  ok status = true ->
  returned (Some text) w = Some (result_json w ++ json) /\
  (result_json w <> EmptyString -> returned (Some text) w <> Some json).
Proof.
  intros Hp Hj Hok. unfold returned.
  rewrite (returned_appended text message status json w Hp Hj Hok).
  cbn [read result_json]. split; [reflexivity|].
  intros Hne Heq. injection Heq as Heq. exact (append_longer _ _ Hne Heq).
Qed.

(** C2: the text returned depends on the calls made before.  The first call
    of a process on a well-formed input returns the JSON of its ledger; the
    same input given again returns that JSON twice over, which is a
    different text. *)
Theorem repeated_call_returns_more
  (text : string) (message : Ledger) (status : Status) (json : string) :
  ParseString text "<wazbean>" = Some message ->
  to_json message json_options = (status, json) ->
  ok status = true ->
  json <> EmptyString ->
  returned (Some text) initial = Some json /\
  returned (Some text) (run [Some text] initial) = Some (json ++ json) /\
  returned (Some text) (run [Some text] initial)
    <> returned (Some text) initial.
Proof.
  intros Hp Hj Hok Hne.
  assert (H1 : returned (Some text) initial = Some json).
  { unfold returned.
    rewrite (returned_appended text message status json _ Hp Hj Hok).
    reflexivity. }
  assert (H2 : returned (Some text) (run [Some text] initial)
               = Some (json ++ json)).
  { unfold returned. cbn [run].
    rewrite (returned_appended text message status json initial Hp Hj Hok).
    cbn [snd].
    rewrite (returned_appended text message status json _ Hp Hj Hok).
    reflexivity. }
  rewrite H1, H2. repeat split.
  intros Heq. injection Heq as Heq. exact (append_longer _ _ Hne Heq).
Qed.

End Appending.

(** ** Runs on the stand-ins *)

Module Runs.

#[local] Existing Instance Stub.collaborators.

Lemma stub_appends : appends Stub.to_json.
Proof. intros message output options. reflexivity. Qed.

(** A session: a null pointer, a ledger, the same ledger again, a text
    the parser rejects, a ledger that cannot be printed. *)
Example session_buffers :
  map (fun inputs => result_json (run inputs initial))
    [ [None];
      [Some "open"];
      [Some "open"; Some "open"];
      [Some "open"; Some EmptyString];
      [Some "open"; Some "unprintable"];
      [None; Some "open"] ]
  = [ null_input_payload;
      "[open]";
      "[open][open]";
      null_ledger_payload;
      serialize_error_payload;
      null_input_payload ++ "[open]" ].
Proof. reflexivity. Qed.

Example session_calls :
  calls (run [None; Some EmptyString; Some "open"] initial)
  = [ CallParseString EmptyString "<wazbean>";
      CallParseString "open" "<wazbean>";
      @CallMessageToJsonString Stub.collaborators "open"
        null_ledger_payload json_options ].
Proof. reflexivity. Qed.

Lemma null_ledger_payload_returned_witness :
  ParseString EmptyString "<wazbean>" = None /\
  returned (Some EmptyString) (run [Some "open"] initial)
    = Some null_ledger_payload /\
  new_calls (Some EmptyString) (run [Some "open"] initial)
    = [CallParseString EmptyString "<wazbean>"].
Proof.
  split; [reflexivity|].
  destruct (null_ledger_payload_returned EmptyString
              (run [Some "open"] initial))
    as (Hret & _ & Hnew & _); [reflexivity|].
  split; [exact Hret | exact Hnew].
Defined.

Lemma serialize_error_payload_returned_witness :
  @ParseString Stub.collaborators "unprintable" "<wazbean>"
    = Some "unprintable" /\
  @MessageToJsonString Stub.collaborators "unprintable" "[open]"
    json_options
    = (ErrorStatus "cannot print", "[open][unpr") /\
  returned (Some "unprintable") (run [Some "open"] initial)
    = Some serialize_error_payload.
Proof.
  split; [reflexivity|]. split; [reflexivity|].
  apply (serialize_error_payload_returned (C := Stub.collaborators)
           "unprintable" "unprintable" (run [Some "open"] initial));
    reflexivity.
Defined.

Lemma serializer_options_witness :
  new_calls (Some "open") initial
    = [CallParseString "open" "<wazbean>";
       @CallMessageToJsonString Stub.collaborators "open" EmptyString
         json_options]
  /\ add_whitespace json_options = true
  /\ always_print_primitive_fields json_options = true
  /\ remaining_fields json_options = (false, false).
Proof.
  split; [reflexivity|].
  apply (serializer_options (C := Stub.collaborators) (Some "open") initial
           "open" EmptyString json_options).
  right. left. reflexivity.
Defined.

Lemma error_branches_overwrite_witness :
  branch (Some EmptyString) initial = NullLedger /\
  branch (Some EmptyString) (run [Some "open"; Some "open"] initial)
    = NullLedger /\
  returned (Some EmptyString) initial = Some null_ledger_payload /\
  returned (Some EmptyString) (run [Some "open"; Some "open"] initial)
    = returned (Some EmptyString) initial.
Proof.
  split; [reflexivity|]. split; [reflexivity|].
  destruct (error_branches_overwrite (C := Stub.collaborators)
              (Some EmptyString) initial
              (run [Some "open"; Some "open"] initial))
    as [Hfixed Hsame]; [discriminate | reflexivity |].
  split; [exact Hfixed | exact Hsame].
Defined.

Lemma serialized_text_follows_old_buffer_witness :
  result_json (run [None] initial) = null_input_payload /\
  returned (Some "open") (run [None] initial)
    = Some (null_input_payload ++ "[open]") /\
  returned (Some "open") (run [None] initial) <> Some "[open]".
Proof.
  split; [reflexivity|].
  destruct (serialized_text_follows_old_buffer (C := Stub.collaborators)
              Stub.to_json stub_appends "open" "open" OkStatus "[open]"
              (run [None] initial))
    as [Hret Hdiff]; [reflexivity | reflexivity | reflexivity |].
  split; [exact Hret|].
  apply Hdiff. discriminate.
Defined.

Lemma repeated_call_returns_more_witness :
  returned (Some "open") initial = Some "[open]" /\
  returned (Some "open") (run [Some "open"] initial)
    = Some "[open][open]" /\
  returned (Some "open") (run [Some "open"] initial)
    <> returned (Some "open") initial.
Proof.
  apply (repeated_call_returns_more (C := Stub.collaborators)
           Stub.to_json stub_appends "open" "open" OkStatus "[open]");
    [reflexivity | reflexivity | reflexivity | discriminate].
Defined.

End Runs.

(** ** Sequences of calls *)

Lemma append_empty_r (s : string) : (s ++ EmptyString)%string = s.
Proof. induction s as [|a s IH]; cbn; [reflexivity | now rewrite IH]. Qed.

Lemma append_assoc (s t u : string) :
  ((s ++ t) ++ u)%string = (s ++ (t ++ u))%string.
Proof. induction s as [|a s IH]; cbn; [reflexivity | now rewrite IH]. Qed.

Lemma append_nonempty_l (s t : string) :
  s <> EmptyString -> (s ++ t)%string <> EmptyString.
Proof. destruct s; [intros H; now contradiction H | discriminate]. Qed.

Section History.
Context `{C : Collaborators}.

Lemma parser_calls_of_call (q : option string) (w : Process) :
  filter is_parse (new_calls q w) = parser_calls_for [q].
Proof.
  destruct q as [text|]; [|reflexivity].
  destruct (ParseString text "<wazbean>") as [message|] eqn:Hp.
  - rewrite (new_calls_serialize text message w Hp). reflexivity.
  - rewrite (new_calls_null_ledger text w Hp). reflexivity.
Qed.

Lemma serializer_calls_of_call (q : option string) (w : Process) :
  length (filter is_serialize (new_calls q w))
  = if reaches_serializer q then 1 else 0.
Proof.
  destruct q as [text|]; [|reflexivity]. unfold reaches_serializer.
  destruct (ParseString text "<wazbean>") as [message|] eqn:Hp.
  - rewrite (new_calls_serialize text message w Hp). reflexivity.
  - rewrite (new_calls_null_ledger text w Hp). reflexivity.
Qed.

(** X1: over any sequence of calls the parser is asked exactly once for
    each non-null input, in the order of the inputs, with that input's text
    and the label [<wazbean>]; null inputs add nothing. *)
Theorem parser_calls_of_run (inputs : list (option string)) (w : Process) :
  filter is_parse (calls (run inputs w))
  = (filter is_parse (calls w) ++ parser_calls_for inputs)%list.
Proof.
  revert w. induction inputs as [|q inputs IH]; intros w.
  - cbn. now rewrite app_nil_r.
  - cbn [run]. rewrite IH, calls_extended, filter_app, parser_calls_of_call.
    rewrite <- app_assoc. destruct q; reflexivity.
Qed.

Lemma parser_count_of_run (inputs : list (option string)) (w : Process) :
  length (filter is_parse (calls (run inputs w)))
  = length (filter is_parse (calls w)) + length (parser_calls_for inputs).
Proof.
  revert w. induction inputs as [|q inputs IH]; intros w.
  - cbn. lia.
  - cbn [run]. rewrite IH, calls_extended, filter_app, length_app,
      parser_calls_of_call.
    unfold parser_calls_for. cbn [flat_map]. rewrite !length_app.
    cbn [length]. lia.
Qed.

Lemma serializer_count_of_run (inputs : list (option string)) (w : Process) :
  length (filter is_serialize (calls (run inputs w)))
  = length (filter is_serialize (calls w))
    + length (filter reaches_serializer inputs).
Proof.
  revert w. induction inputs as [|q inputs IH]; intros w.
  - cbn. lia.
  - cbn [run]. rewrite IH, calls_extended, filter_app, length_app,
      serializer_calls_of_call.
    cbn [filter]. destruct (reaches_serializer q); cbn [length]; lia.
Qed.

Lemma reaching_bounded (inputs : list (option string)) :
  length (filter reaches_serializer inputs)
  <= length (parser_calls_for inputs).
Proof.
  induction inputs as [|q inputs IH]; [cbn; lia|].
  cbn [filter parser_calls_for flat_map]. rewrite length_app.
  fold (parser_calls_for inputs).
  destruct q as [text|]; cbn [reaches_serializer].
  - destruct (ParseString text "<wazbean>"); cbn [length]; lia.
  - cbn [length]. lia.
Qed.

(** X2: over any sequence of calls the serializer is invoked once for each
    input that is non-null and parses to a non-null ledger, and never
    otherwise; and in the history of the process the calls to the
    serializer that the sequence adds are never more than the calls to the
    parser it adds: from a fresh process the history never holds more
    serializer calls than parser calls. *)
Theorem serializer_calls_of_run (inputs : list (option string)) (w : Process) :
  length (filter is_serialize (calls (run inputs w)))
  = length (filter is_serialize (calls w))
    + length (filter reaches_serializer inputs) /\
  length (filter is_serialize (calls (run inputs w)))
    + length (filter is_parse (calls w))
  <= length (filter is_parse (calls (run inputs w)))
     + length (filter is_serialize (calls w)) /\
  length (filter is_serialize (calls (run inputs initial)))
  <= length (filter is_parse (calls (run inputs initial))).
Proof.
  pose proof (reaching_bounded inputs) as Hle.
  split; [apply serializer_count_of_run|]. split.
  - rewrite serializer_count_of_run, parser_count_of_run. lia.
  - rewrite serializer_count_of_run, parser_count_of_run. cbn. lia.
Qed.

End History.

Section Accumulation.
Context `{C : Collaborators}.
Variable to_json : Ledger -> JsonPrintOptions Rest -> Status * string.
Hypothesis contract : appends to_json.

Lemma succeeds_inv (text : string) :
  succeeds to_json text = true ->
  exists message status,
    ParseString text "<wazbean>" = Some message /\
    to_json message json_options = (status, emitted to_json text) /\
    ok status = true.
Proof.
  unfold succeeds, emitted.
  destruct (ParseString text "<wazbean>") as [message|] eqn:Hp;
    [|discriminate].
  destruct (to_json message json_options) as [status json] eqn:Hj.
  cbn [fst snd]. intros Hok. exists message, status.
  repeat split; assumption.
Qed.

Lemma buffer_accumulates (texts : list string) (w : Process) :
  forallb (succeeds to_json) texts = true ->
  result_json (run (map Some texts) w)
  = (result_json w ++ emitted_all to_json texts)%string.
Proof.
  revert w. induction texts as [|text texts IH]; intros w Hall.
  - cbn. now rewrite append_empty_r.
  - cbn [forallb] in Hall. apply andb_prop in Hall as [Hok Hall].
    destruct (succeeds_inv text Hok) as (message & status & Hp & Hj & Hs).
    cbn [map run]. rewrite (IH _ Hall).
    rewrite (returned_appended to_json contract text message status _ w
               Hp Hj Hs).
    cbn [snd result_json]. unfold emitted_all. cbn [map fold_right].
    now rewrite append_assoc.
Qed.

(** X3: well-formed inputs accumulate.  After any number of successful
    calls, one more successful call returns what the buffer held at the
    start, followed by the JSON of every one of those calls in order, and
    then its own. *)
Theorem successful_calls_accumulate
  (texts : list string) (text : string) (w : Process) :
  forallb (succeeds to_json) (texts ++ [text]) = true ->
  returned (Some text) (run (map Some texts) w)
  = Some (result_json w ++ emitted_all to_json (texts ++ [text])).
Proof.
  intros Hall. rewrite returned_buffer.
  rewrite <- (buffer_accumulates (texts ++ [text]) w Hall).
  rewrite map_app. cbn [map]. clear Hall.
  revert w. induction texts as [|t texts IH]; intros w; [reflexivity|].
  cbn [map app run]. apply IH.
Qed.

(** X4: the process enters the result only as a prefix.  Under a
    serializer that appends, each input is of one of two kinds: either it
    returns one and the same error payload from every process, or it
    returns, from every process, what the buffer held followed by one and
    the same JSON text. *)
Theorem result_fixed_or_appended (q : option string) :
  (exists fixed,
     In fixed
        [null_input_payload; null_ledger_payload; serialize_error_payload]
     /\ forall w, returned q w = Some fixed)
  \/
  (exists json, forall w, returned q w = Some (result_json w ++ json)).
Proof.
  destruct q as [text|].
  - destruct (ParseString text "<wazbean>") as [message|] eqn:Hp.
    + destruct (to_json message json_options) as [status json] eqn:Hj.
      destruct (ok status) eqn:Hok.
      * right. exists json. intros w. unfold returned.
        rewrite (returned_appended to_json contract text message status
                   json w Hp Hj Hok).
        reflexivity.
      * left. exists serialize_error_payload.
        split; [right; right; left; reflexivity|].
        intros w. rewrite returned_buffer.
        rewrite (call_serialize text message w Hp). cbn [snd result_json].
        rewrite contract. unfold appending. rewrite Hj, Hok. reflexivity.
    + left. exists null_ledger_payload.
      split; [right; left; reflexivity|].
      intros w. unfold returned. rewrite (call_null_ledger text w Hp).
      reflexivity.
  - left. exists null_input_payload.
    split; [left; reflexivity|]. intros w. reflexivity.
Qed.

Lemma buffer_stays_nonempty (q : option string) (w : Process) :
  result_json w <> EmptyString ->
  result_json (snd (call q w)) <> EmptyString.
Proof.
  intros Hne. destruct q as [text|]; [|discriminate].
  destruct (ParseString text "<wazbean>") as [message|] eqn:Hp.
  - rewrite (call_serialize text message w Hp). cbn [snd result_json].
    rewrite contract. unfold appending.
    destruct (to_json message json_options) as [status json].
    destruct (negb (ok status)); [discriminate|].
    now apply append_nonempty_l.
  - rewrite (call_null_ledger text w Hp). discriminate.
Qed.

(** X5: the buffer is never emptied.  Once it holds some text, it holds
    some text after every later sequence of calls, so every later
    well-formed input returns more than its own JSON. *)
Theorem buffer_never_emptied
  (inputs : list (option string)) (w : Process) :
  result_json w <> EmptyString ->
  result_json (run inputs w) <> EmptyString /\
  forall text, succeeds to_json text = true ->
    returned (Some text) (run inputs w) <> Some (emitted to_json text).
Proof.
  intros Hne.
  assert (Hrun : result_json (run inputs w) <> EmptyString).
  { revert w Hne. induction inputs as [|q inputs IH]; intros w Hne.
    - exact Hne.
    - cbn [run]. apply IH. now apply buffer_stays_nonempty. }
  split; [exact Hrun|]. intros text Hok.
  destruct (succeeds_inv text Hok) as (message & status & Hp & Hj & Hs).
  unfold returned.
  rewrite (returned_appended to_json contract text message status _ _
             Hp Hj Hs).
  cbn [read result_json]. intros Heq. injection Heq as Heq.
  exact (append_longer _ _ Hrun Heq).
Qed.

End Accumulation.

Module SessionRuns.

#[local] Existing Instance Stub.collaborators.

Lemma successful_calls_accumulate_witness :
  forallb (succeeds Stub.to_json) (["open"; "note"] ++ ["close"]) = true /\
  returned (Some "close") (run [Some "open"; Some "note"] initial)
  = Some "[open][note][close]".
Proof.
  split; [reflexivity|].
  apply (successful_calls_accumulate (C := Stub.collaborators)
           Stub.to_json Runs.stub_appends ["open"; "note"] "close" initial).
  reflexivity.
Defined.

Lemma result_fixed_or_appended_witness :
  (exists fixed,
     In fixed
        [null_input_payload; null_ledger_payload; serialize_error_payload]
     /\ forall w, returned (Some "unprintable") w = Some fixed)
  \/
  (exists json,
     forall w, returned (Some "unprintable") w = Some (result_json w ++ json)).
Proof.
  apply (result_fixed_or_appended (C := Stub.collaborators)
           Stub.to_json Runs.stub_appends (Some "unprintable")).
Defined.

Lemma buffer_never_emptied_witness :
  result_json (run [None] initial) <> EmptyString /\
  result_json (run [Some "open"; Some EmptyString] (run [None] initial))
  <> EmptyString /\
  returned (Some "open")
    (run [Some "open"; Some EmptyString] (run [None] initial))
  <> Some "[open]".
Proof.
  split; [discriminate|].
  destruct (buffer_never_emptied (C := Stub.collaborators)
              Stub.to_json Runs.stub_appends
              [Some "open"; Some EmptyString] (run [None] initial))
    as [Hbuf Hret]; [discriminate|].
  split; [exact Hbuf | apply (Hret "open"); reflexivity].
Defined.

End SessionRuns.
